(** * Rider telemetry: sample normalisation, ride history and the crash countdown

    A shallow embedding of the [App] component of [src/src/App.js]: the handler
    of a polled sample (lines 35-81), [triggerCrashSequence] (89-104),
    [cancelEmergency] (106-110) and [callEmergency] (112-114); then what the
    views make of the state: the map callback (117-147), [downloadCSV]
    (161-172), the dashboard cards (175-211) and the history view (213-236).

    Numbers.  A JavaScript number is an IEEE double.  Every double is a
    rational, and the comparisons of the source are exact on them, so a number
    is modelled by the rational it denotes.  The decimal literals [0.8], [1.7],
    [5.5] and [9.6] stand for the nearest double; no double lies between a
    two-digit decimal and its nearest double, so comparing with the decimal
    gives the same answer.  [toFixed(2)] picks the integer [n] with [n/100]
    closest to the exact value, the larger one on a tie, and [parseFloat] reads
    [n/100] back: the result is modelled by [n/100].  [Math.sqrt] is the
    host's; it is a parameter of the development.  The sum of squares and the
    division of lines 39-40 round in the source and are exact here; the
    properties below use [gForce] through its comparison with 3.5 only.  A
    missing field of the sample reads as [undefined], which arithmetic turns
    into [NaN].  A decimal in an example stands for its nearest double; the
    examples keep away from rounding ties. *)

From Stdlib Require Import String Ascii QArith Qround ZArith List Sorted Bool Lia Lqa.
Import ListNotations.

Local Open Scope Q_scope.

(** ** Numbers *)

Inductive number : Type :=
| Num (q : Q)
| NaN.

(** [ToNumber] of a field that may be [undefined]. *)
Definition toNumber (field : option Q) : number :=
  match field with
  | Some q => Num q
  | None => NaN
  end.

(** [x ** 2] *)
Definition square (x : number) : number :=
  match x with
  | Num q => Num (q * q)
  | NaN => NaN
  end.

Definition add (x y : number) : number :=
  match x, y with
  | Num a, Num b => Num (a + b)
  | _, _ => NaN
  end.

Definition divide (x : number) (d : Q) : number :=
  match x with
  | Num a => Num (a / d)
  | NaN => NaN
  end.

Definition Qltb (x y : Q) : bool := negb (Qle_bool y x).

(** [x > bound]; any comparison with [NaN] is false. *)
Definition greaterThan (x : number) (bound : Q) : bool :=
  match x with
  | Num a => Qltb bound a
  | NaN => false
  end.

(** [parseFloat(x.toFixed(2))] for [x >= 0]. *)
Definition toFixed2 (x : Q) : Q := Qfloor (x * 100 + 0.5) # 100.

(** A square root to run examples with: exact on the square of a rational,
    rounded down to a multiple of [1 / Qden q] elsewhere. *)
Definition sqrt_down (q : Q) : Q :=
  Z.sqrt (Qnum q * Zpos (Qden q)) # Qden q.

(** ** Data *)

(** The JSON object the sensor board answers with.  Every field is optional;
    a field that is present holds a number ([posture] a label). *)
Record RawSample : Type := mkRaw {
  ax : option Q;
  ay : option Q;
  az : option Q;
  tilt : option Q;
  posture : option string;
  gps_spd : option Q;
  mpu_spd : option Q;
  lat : option Q;
  lon : option Q
}.

Inductive RideMode : Type := Idle | Walking | Scooter | Motorcycle.

(** [newData]: the fields of the sample ([...data]) and the derived ones
    written over them. *)
Record Reading : Type := mkReading {
  data_of : RawSample;
  gForce : number;
  spd : Q;
  ride_mode : RideMode;
  timestamp : Z
}.

Definition EMERGENCY_NUMBER : string := "+911234567890".

(** The component's state ([useState], [useRef]) and the part of the browser it
    acts on: the intervals started by [triggerCrashSequence] that are still
    running, the handle the next [setInterval] will return (they are numbered
    from 1 here), and the [tel:] addresses the page was sent to, oldest
    first. *)
Record App : Type := mkApp {
  telemetry : option Reading;
  crashDetected : bool;
  countdown : Z;
  history : list Reading;
  countdownRef : option nat;
  intervals : list nat;
  nextInterval : nat;
  dialled : list string
}.

(** The first render: [useState({})], [useState(false)], [useState(0)],
    [useState([])], [useRef(null)]. *)
Definition mounted : App :=
  {| telemetry := None;
     crashDetected := false;
     countdown := 0%Z;
     history := [];
     countdownRef := None;
     intervals := [];
     nextInterval := 1%nat;
     dialled := [] |}.

(** What happens to the component: the poll of line 33 resolves with [data]
    (JSON [null] is [None]) at time [now]; the interval with handle [id] comes
    due; the rider presses Cancel (on screen while [crashDetected] is true,
    line 280) or Call Now (in the crash banner and on the contact page).  A
    poll that fails is no event: line 82 logs and changes nothing. *)
Inductive Event : Type :=
| Fetched (now : Z) (data : option RawSample)
| Tick (id : nat)
| Cancel
| CallNow.

(** ** Normalisation (lines 36-63) *)

(** Lines 44-45.  For a number [x], [x && x > 0] holds exactly when [x > 0]. *)
Definition positiveField (field : option Q) : option Q :=
  match field with
  | Some q => if Qltb 0 q then Some q else None
  | None => None
  end.

(** Lines 43-45. *)
Definition rawSpeed (data : RawSample) : Q :=
  match positiveField (gps_spd data) with
  | Some g => g
  | None =>
      match positiveField (mpu_spd data) with
      | Some m => m
      | None => 0
      end
  end.

(** Line 48. *)
Definition speedOf (rawSpeed : Q) : Q :=
  if Qltb rawSpeed 0.8 then 0 else toFixed2 rawSpeed.

(** Lines 51-55. *)
Definition rideModeOf (speed : Q) : RideMode :=
  if Qltb speed 1.7 then Idle
  else if Qltb speed 5.5 then Walking
  else if Qltb speed 9.6 then Scooter
  else Motorcycle.

(** ** State updates *)

Definition setTelemetry (r : Reading) (s : App) : App :=
  mkApp (Some r) (crashDetected s) (countdown s) (history s)
        (countdownRef s) (intervals s) (nextInterval s) (dialled s).

Definition setCrashDetected (b : bool) (s : App) : App :=
  mkApp (telemetry s) b (countdown s) (history s)
        (countdownRef s) (intervals s) (nextInterval s) (dialled s).

Definition setCountdown (n : Z) (s : App) : App :=
  mkApp (telemetry s) (crashDetected s) n (history s)
        (countdownRef s) (intervals s) (nextInterval s) (dialled s).

Definition setHistory (update : list Reading -> list Reading) (s : App) : App :=
  mkApp (telemetry s) (crashDetected s) (countdown s) (update (history s))
        (countdownRef s) (intervals s) (nextInterval s) (dialled s).

(** [countdownRef.current = setInterval(..., 1000)]: a handle no interval had
    before, now running, kept in the ref. *)
Definition startCountdownInterval (s : App) : App :=
  mkApp (telemetry s) (crashDetected s) (countdown s) (history s)
        (Some (nextInterval s)) (intervals s ++ [nextInterval s])
        (S (nextInterval s)) (dialled s).

(** [clearInterval(handle)]: that interval never fires again; [null] or a
    handle that is not running stops nothing. *)
Definition stop (handle : option nat) (running : list nat) : list nat :=
  match handle with
  | Some id => filter (fun j => negb (Nat.eqb j id)) running
  | None => running
  end.

(** [clearInterval(countdownRef.current)] *)
Definition clearCountdownInterval (s : App) : App :=
  mkApp (telemetry s) (crashDetected s) (countdown s) (history s)
        (countdownRef s) (stop (countdownRef s) (intervals s))
        (nextInterval s) (dialled s).

(** ** The controller (lines 89-114) *)

(** Lines 112-114: [window.location.href = `tel:${EMERGENCY_NUMBER}`]. *)
Definition callEmergency (s : App) : App :=
  mkApp (telemetry s) (crashDetected s) (countdown s) (history s)
        (countdownRef s) (intervals s) (nextInterval s)
        (dialled s ++ [EMERGENCY_NUMBER]).

(** Lines 106-110. *)
Definition cancelEmergency (s : App) : App :=
  setCountdown 0 (setCrashDetected false (clearCountdownInterval s)).

(** Lines 95-102: the callback of the countdown interval.  The updater gets the
    current counter as [prev]; it reads [countdownRef.current] when it runs. *)
Definition countdownTick (s : App) : App :=
  let prev := countdown s in
  if (prev <=? 1)%Z then
    setCountdown 0 (callEmergency (clearCountdownInterval s))
  else
    setCountdown (prev - 1) s.

(** Lines 89-104.  [seen] is the [crashDetected] the function closes over: the
    value of the state in the render that created the function. *)
Definition triggerCrashSequence (seen : bool) (s : App) : App :=
  if seen then s
  else startCountdownInterval (setCountdown 30 (setCrashDetected true s)).

(** Line 80 is the only call of [triggerCrashSequence].  It stands in the
    handler installed by the effect of lines 31-86, whose dependency list is
    [[]]: the effect runs once, after the first render, and its handler keeps
    that render's [triggerCrashSequence], which closes over that render's
    [crashDetected].  Later renders define new functions that nothing calls. *)
Definition seenByPoll : bool := crashDetected mounted.

(** Line 77: [[...prev.slice(-1000), newData]]. *)
Definition appendHistory (newData : Reading) (prev : list Reading) : list Reading :=
  skipn (length prev - 1000) prev ++ [newData].

Section Host.

Variable Math_sqrt : Q -> Q.

(** Lines 39-40. *)
Definition gForceOf (data : RawSample) : number :=
  match add (add (square (toNumber (ax data))) (square (toNumber (ay data))))
            (square (toNumber (az data))) with
  | Num sum => divide (Num (Math_sqrt sum)) 9.8
  | NaN => NaN
  end.

(** Lines 36-63: [None] is the early [return] of line 36.  The position
    callback of lines 66-74 writes [lat] and [lon] of the reading later on; no
    property below reads them, and it is left out. *)
Definition normalize (now : Z) (data : option RawSample) : option Reading :=
  match data with
  | None => None
  | Some d =>
      match ax d with
      | None => None
      | Some _ =>
          let speed := speedOf (rawSpeed d) in
          Some (mkReading d (gForceOf d) speed (rideModeOf speed) now)
      end
  end.

(** Lines 35-81: the handler of a fetched sample. *)
Definition onData (now : Z) (data : option RawSample) (s : App) : App :=
  match normalize now data with
  | None => s
  | Some newData =>
      let s' := setHistory (appendHistory newData) (setTelemetry newData s) in
      if greaterThan (gForce newData) 3.5
      then triggerCrashSequence seenByPoll s'
      else s'
  end.

(** An interval that was cleared does not fire. *)
Definition step (s : App) (e : Event) : App :=
  match e with
  | Fetched now data => onData now data s
  | Tick id => if existsb (Nat.eqb id) (intervals s) then countdownTick s else s
  | Cancel => cancelEmergency s
  | CallNow => callEmergency s
  end.

Definition run (s : App) (events : list Event) : App := fold_left step events s.

End Host.

(** ** The specification's wording, for comparison *)

(** "GPS speed if present and > 0, else inertial speed if present and > 0,
    else 0". *)
Definition spec_chosenSpeed (gps inertial : option Q) : Q :=
  match gps with
  | Some g => if Qlt_le_dec 0 g then g else
      match inertial with
      | Some m => if Qlt_le_dec 0 m then m else 0
      | None => 0
      end
  | None =>
      match inertial with
      | Some m => if Qlt_le_dec 0 m then m else 0
      | None => 0
      end
  end.

(** "then rounded to 2 decimal places; values below 0.8 km/h snapped to 0". *)
Definition spec_speedKmh (gps inertial : option Q) : Q :=
  let rounded := toFixed2 (spec_chosenSpeed gps inertial) in
  if Qlt_le_dec rounded 0.8 then 0 else rounded.

(** "the acceleration vector is entirely absent". *)
Definition spec_accelerationAbsent (data : RawSample) : Prop :=
  ax data = None /\ ay data = None /\ az data = None.

(** ** An invariant of the controller *)

(** While the flag is down the counter is 0 and the interval the ref names is
    not running. *)
Definition quietWhenIdle (s : App) : Prop :=
  crashDetected s = false ->
  countdown s = 0%Z /\ stop (countdownRef s) (intervals s) = intervals s.

(** ** Samples and runs used in the examples *)

Definition sampleWith (x y z : option Q) (gps inertial : option Q) : RawSample :=
  mkRaw x y z None None gps inertial None None.

(** At rest: [G = 1]. *)
Definition restSample : RawSample := sampleWith (Some 0) (Some 0) (Some 9.8) None None.

(** An impact: [G = 4]. *)
Definition crashSample : RawSample := sampleWith (Some 39.2) (Some 0) (Some 0) None None.

(** A GPS speed just under the jitter bound, which rounds up to 0.80, with an
    inertial speed beside it. *)
Definition jitterEdgeSample : RawSample :=
  sampleWith (Some 0) (Some 0) (Some 9.8) (Some 0.797) (Some 3).

(** A GPS speed to round, with an inertial speed beside it. *)
Definition cruiseSample : RawSample :=
  sampleWith (Some 0) (Some 0) (Some 9.8) (Some 12.3456) (Some 3).

(** The [y] and [z] components of the acceleration without the [x] one. *)
Definition noXSample : RawSample :=
  sampleWith None (Some 0) (Some 9.8) (Some 12.3456) None.

(** The [x] component alone. *)
Definition onlyXSample : RawSample :=
  sampleWith (Some 39.2) None None None None.

(** [n] polls, 500 ms apart, each answered with [data]. *)
Fixpoint polls (n : nat) (from : Z) (data : RawSample) : list Event :=
  match n with
  | O => []
  | S k => Fetched from (Some data) :: polls k (from + 500)%Z data
  end.

(** The state after the events from the first render, with [sqrt_down] for
    the host's square root. *)
Definition after (events : list Event) : App := run sqrt_down mounted events.

(** ** Runs, read back *)

(** [l.slice(-n)]: the last [n] elements, all of them when there are fewer. *)
Definition lastN {A : Type} (n : nat) (l : list A) : list A :=
  skipn (length l - n) l.

(** The newest element of a list that grows at its end. *)
Definition newest {A : Type} (l : list A) : option A :=
  match rev l with
  | x :: _ => Some x
  | [] => None
  end.

(** The readings the polls of a run build, in arrival order: one for every
    fetched sample that line 36 lets through. *)
Fixpoint processed (sqrt : Q -> Q) (events : list Event) : list Reading :=
  match events with
  | [] => []
  | Fetched now data :: rest =>
      match normalize sqrt now data with
      | Some r => r :: processed sqrt rest
      | None => processed sqrt rest
      end
  | _ :: rest => processed sqrt rest
  end.

(** The times of the polls of a run, in arrival order. *)
Fixpoint pollTimes (events : list Event) : list Z :=
  match events with
  | [] => []
  | Fetched now _ :: rest => now :: pollTimes rest
  | _ :: rest => pollTimes rest
  end.

(** The event is a poll whose reading passes the test of line 80. *)
Definition startsCountdown (sqrt : Q -> Q) (e : Event) : bool :=
  match e with
  | Fetched now data =>
      match normalize sqrt now data with
      | Some r => greaterThan (gForce r) 3.5
      | None => false
      end
  | _ => false
  end.

Definition isCallNow (e : Event) : bool :=
  match e with
  | CallNow => true
  | _ => false
  end.

(** ** What the views show *)

(** One line of the history view (lines 226-234): the reading's time (shown
    through [toLocaleTimeString]), speed and ride mode.  The React key of a
    line is its position in the list. *)
Definition rowOf (item : Reading) : Z * Q * RideMode :=
  (timestamp item, spd item, ride_mode item).

(** Lines 222-235: [history.slice(-20).reverse().map(...)]. *)
Definition historyRows (h : list Reading) : list (Z * Q * RideMode) :=
  map rowOf (rev (lastN 20 h)).

(** Lines 219-236: the placeholder when the history is empty, else the
    lines. *)
Inductive HistoryPane : Type :=
| NoRides
| Rides (rows : list (Z * Q * RideMode)).

Definition HistoryView (h : list Reading) : HistoryPane :=
  if (length h =? 0)%nat then NoRides else Rides (historyRows h).

(** Line 180: [telemetry.spd || 0], the number before [" km/h"]. *)
Definition speedCard (s : App) : Q :=
  match telemetry s with
  | Some r => if Qeq_bool (spd r) 0 then 0 else spd r
  | None => 0
  end.

(** Line 198: [telemetry.posture || "Upright"]; the empty label is falsy. *)
Definition postureCard (s : App) : string :=
  match telemetry s with
  | Some r =>
      match posture (data_of r) with
      | Some label => if String.eqb label "" then "Upright"%string else label
      | None => "Upright"%string
      end
  | None => "Upright"%string
  end.

(** Line 204: [telemetry.ride_mode || "Idle"]; the four labels are truthy. *)
Definition rideModeCard (s : App) : RideMode :=
  match telemetry s with
  | Some r => ride_mode r
  | None => Idle
  end.

(** ** The CSV export (lines 161-172) *)

(** An object of the history as the export reads it: its own keys in the
    order [Object.keys] lists them, each with the text [join] turns its value
    into. *)
Definition JsObject : Type := list (string * string).

Definition lineBreak : string := String (ascii_of_nat 10) EmptyString.

(** Lines 162-165: [None] is the early [return] on an empty history, else the
    text handed to the [Blob]. *)
Definition downloadCSV (objects : list JsObject) : option string :=
  match objects with
  | [] => None
  | first :: _ =>
      let headers := String.concat "," (map fst first) in
      let rows := map (fun obj => String.concat "," (map snd obj)) objects in
      Some (String.concat lineBreak (headers :: rows))
  end.

(** How a reader of the file takes a text apart at a separator character. *)
Fixpoint splitOn (sep : ascii) (s : string) : list string :=
  match s with
  | EmptyString => [EmptyString]
  | String c rest =>
      if Ascii.eqb c sep then EmptyString :: splitOn sep rest
      else
        match splitOn sep rest with
        | part :: parts => String c part :: parts
        | [] => [String c EmptyString]
        end
  end.

(** The character does not occur in the text. *)
Fixpoint without (c : ascii) (s : string) : Prop :=
  match s with
  | EmptyString => True
  | String a rest => a <> c /\ without c rest
  end.

(** ** The map (lines 117-147) *)

(** What the three refs hold: the centre of the Leaflet map once it exists,
    the position of the marker once it exists, the points of the polyline
    once it exists. *)
Record MapRefs : Type := mkMapRefs {
  mapRef : option (Q * Q);
  markerRef : option (Q * Q);
  polylineRef : option (list (Q * Q))
}.

(** [useRef(null)], three times. *)
Definition noMap : MapRefs := mkMapRefs None None None.

(** A number field used as a condition: [undefined] and 0 are falsy. *)
Definition truthyNumber (field : option Q) : option Q :=
  match field with
  | Some q => if Qeq_bool q 0 then None else Some q
  | None => None
  end.

(** Lines 120-145: the callback of the timeout, run with the [#map] element
    present or not and with the [lat] and [lon] the reading holds at that
    moment.  [None] is the [TypeError] of calling [addLatLng] on [null]. *)
Definition mapTimeout (containerPresent : bool) (lat lon : option Q)
                      (m : MapRefs) : option MapRefs :=
  if negb containerPresent then Some m
  else
    let m1 :=
      match mapRef m with
      | None => mkMapRefs (Some (12.9716, 77.5946)) (markerRef m) (Some [])
      | Some _ => m
      end in
    match truthyNumber lat, truthyNumber lon with
    | Some la, Some lo =>
        match polylineRef m1 with
        | Some points =>
            Some (mkMapRefs (Some (la, lo)) (Some (la, lo)) (Some (points ++ [(la, lo)])))
        | None => None
        end
    | _, _ => Some m1
    end.

(** The timeouts of a run, one after the other; [None] when one of them
    throws. *)
Fixpoint mapTimeouts (fired : list (bool * option Q * option Q)) (m : MapRefs)
  : option MapRefs :=
  match fired with
  | [] => Some m
  | (present, lat, lon) :: rest =>
      match mapTimeout present lat lon m with
      | Some m' => mapTimeouts rest m'
      | None => None
      end
  end.

(** What the refs keep between timeouts: without a polyline there is no map
    and no marker; with one, every point has a non-zero latitude and
    longitude, the marker stands on the newest point, and the map is centred
    there (on its first centre while there is no point). *)
Definition mapOk (m : MapRefs) : Prop :=
  match polylineRef m with
  | None => mapRef m = None /\ markerRef m = None
  | Some points =>
      Forall (fun p => ~ fst p == 0 /\ ~ snd p == 0) points /\
      markerRef m = newest points /\
      mapRef m = Some match newest points with
                      | Some p => p
                      | None => (12.9716, 77.5946)
                      end
  end.

(** * Properties *)

(** ** Comparisons and rounding *)

Lemma Qltb_true (x y : Q) : Qltb x y = true <-> x < y.
Proof.
  unfold Qltb. rewrite negb_true_iff, <- not_true_iff_false, Qle_bool_iff.
  split; [apply Qnot_le_lt | apply Qlt_not_le].
Qed.

Lemma Qltb_false (x y : Q) : Qltb x y = false <-> y <= x.
Proof.
  unfold Qltb. rewrite negb_false_iff. apply Qle_bool_iff.
Qed.

Lemma Qltb_spec (x y : Q) : reflect (x < y) (Qltb x y).
Proof.
  destruct (Qltb x y) eqn:E; constructor.
  - now apply Qltb_true.
  - apply Qle_not_lt. now apply Qltb_false.
Qed.

(** [toFixed2 x] is the hundredth nearest to [x], the upper one on a tie. *)
Lemma toFixed2_nearest (x : Q) :
  x - 0.005 < toFixed2 x /\ toFixed2 x <= x + 0.005.
Proof.
  unfold toFixed2.
  pose proof (Qfloor_le (x * 100 + 0.5)) as Hle.
  pose proof (Qlt_floor (x * 100 + 0.5)) as Hlt.
  set (n := Qfloor (x * 100 + 0.5)) in *. clearbody n.
  assert (E : n # 100 == inject_Z n / 100).
  { unfold Qeq, Qdiv, Qmult, Qinv, inject_Z. simpl. lia. }
  rewrite E. rewrite inject_Z_plus in Hlt. change (inject_Z 1) with 1 in Hlt.
  split.
  - apply Qlt_shift_div_l; [reflexivity | ]. lra.
  - apply Qle_shift_div_r; [reflexivity | lra].
Qed.

Lemma toFixed2_mono (x y : Q) : x <= y -> toFixed2 x <= toFixed2 y.
Proof.
  intros H. unfold toFixed2.
  assert (Hf : (Qfloor (x * 100 + 0.5) <= Qfloor (y * 100 + 0.5))%Z).
  { apply Qfloor_resp_le. lra. }
  unfold Qle. cbn [Qnum Qden]. lia.
Qed.

Lemma toFixed2_hundredth (n : Z) : toFixed2 (n # 100) = (n # 100).
Proof.
  unfold toFixed2. f_equal.
  assert (E : (n # 100) * 100 + 0.5 == inject_Z n + 0.5).
  { unfold Qeq, Qmult, Qplus, inject_Z. simpl. lia. }
  rewrite (Qfloor_comp _ _ E).
  apply Z.le_antisymm.
  - assert (H : inject_Z (Qfloor (inject_Z n + 0.5)) < inject_Z (n + 1)).
    { eapply Qle_lt_trans; [apply Qfloor_le |].
      rewrite inject_Z_plus. change (inject_Z 1) with 1. lra. }
    rewrite <- Zlt_Qlt in H. lia.
  - rewrite <- (Qfloor_Z n) at 1. apply Qfloor_resp_le. lra.
Qed.

Lemma toFixed2_ge_08 (x : Q) : 0.8 <= x -> 0.8 <= toFixed2 x.
Proof.
  intros H. unfold toFixed2.
  assert (Hf : (80 <= Qfloor (x * 100 + 0.5))%Z).
  { rewrite <- (Qfloor_Z 80). apply Qfloor_resp_le.
    change (inject_Z 80) with 80. lra. }
  unfold Qle. cbn [Qnum Qden]. lia.
Qed.

Lemma toFixed2_lt_08 (x : Q) : x < 0.795 -> toFixed2 x < 0.8.
Proof.
  intros H. unfold toFixed2.
  assert (Hf : (Qfloor (x * 100 + 0.5) < 80)%Z).
  { rewrite Zlt_Qlt. eapply Qle_lt_trans; [apply Qfloor_le |]. change (inject_Z 80) with 80. lra. }
  unfold Qlt. cbn [Qnum Qden]. lia.
Qed.

(** ** Ride mode *)

(** C8.  The ride mode is a function of the speed alone, with the lower bound
    of each band included and the upper bound excluded: below 1.7 is [Idle],
    from 1.7 up to 5.5 is [Walking], from 5.5 up to 9.6 is [Scooter], 9.6 and
    above is [Motorcycle]; so 1.69 is [Idle], 1.7 is [Walking], 5.5 is
    [Scooter] and 9.6 is [Motorcycle].  Every reading the normaliser builds
    carries the mode of its own speed. *)
Theorem rideMode_thresholds :
  (forall speed : Q,
      (rideModeOf speed = Idle <-> speed < 1.7) /\
      (rideModeOf speed = Walking <-> 1.7 <= speed /\ speed < 5.5) /\
      (rideModeOf speed = Scooter <-> 5.5 <= speed /\ speed < 9.6) /\
      (rideModeOf speed = Motorcycle <-> 9.6 <= speed)) /\
  rideModeOf 1.69 = Idle /\
  rideModeOf 1.7 = Walking /\
  rideModeOf 5.5 = Scooter /\
  rideModeOf 9.6 = Motorcycle /\
  (forall (sqrt : Q -> Q) (now : Z) (data : option RawSample),
      option_map ride_mode (normalize sqrt now data) =
      option_map (fun r => rideModeOf (spd r)) (normalize sqrt now data)).
Proof.
  split; [| repeat split].
  - intros speed. unfold rideModeOf.
    destruct (Qltb_spec speed 1.7) as [H1 | H1];
      [| destruct (Qltb_spec speed 5.5) as [H2 | H2];
         [| destruct (Qltb_spec speed 9.6) as [H3 | H3]]];
      repeat split; intros; try discriminate; try lra.
  - intros sqrt now [d |]; [| reflexivity].
    unfold normalize. destruct (ax d); reflexivity.
Qed.

(** ** Speed *)

Lemma positiveField_some (field : option Q) (q : Q) :
  positiveField field = Some q <-> field = Some q /\ 0 < q.
Proof.
  destruct field as [p |]; simpl; [| split; [discriminate | intros [H _]; discriminate]].
  destruct (Qltb_spec 0 p) as [H | H]; split.
  - intros E. injection E as <-. auto.
  - intros [E _]. exact E.
  - discriminate.
  - intros [E Hq]. injection E as ->. contradiction.
Qed.

(** The source's choice of the speed is the specification's precedence. *)
Lemma rawSpeed_precedence (d : RawSample) :
  rawSpeed d = spec_chosenSpeed (gps_spd d) (mpu_spd d).
Proof.
  unfold rawSpeed, spec_chosenSpeed, positiveField.
  destruct (gps_spd d) as [g |], (mpu_spd d) as [m |];
    repeat match goal with
           | |- context [Qltb ?a ?b] => destruct (Qltb_spec a b)
           | |- context [Qlt_le_dec ?a ?b] => destruct (Qlt_le_dec a b)
           end; try reflexivity; exfalso; lra.
Qed.


Lemma speedOf_gap (x : Q) : speedOf x = 0 \/ 0.8 <= speedOf x.
Proof.
  unfold speedOf. destruct (Qltb_spec x 0.8) as [H | H]; [now left | right].
  apply toFixed2_ge_08. lra.
Qed.

(** C7, the claim as the specification words it fails on the code: the GPS
    speed 0.797 rounds to 0.80, which is not below 0.8, yet the reading's
    speed is 0. *)
Lemma speed_round_then_snap_counterexample :
  option_map spd (normalize sqrt_down 0 (Some jitterEdgeSample)) = Some 0 /\
  spec_speedKmh (gps_spd jitterEdgeSample) (mpu_spd jitterEdgeSample) = 0.80 /\
  ~ 0 == 0.80.
Proof.
  split; [reflexivity | split; [reflexivity | discriminate]].
Qed.

(** C7, amended.  The speed of a reading is taken from the GPS speed when that
    is present and positive (whatever the inertial speed is), else from the
    inertial speed when that is present and positive, else from 0.  The value
    so chosen is compared with 0.8 before any rounding: below 0.8 the speed is
    0; from 0.8 on it is the chosen value rounded to the nearest hundredth.
    This is the specification's "round, then snap" for every chosen value
    outside [0.795, 0.8). *)
Theorem speed_snap_then_round :
  forall (sqrt : Q -> Q) (now : Z) (d : RawSample) (r : Reading),
    normalize sqrt now (Some d) = Some r ->
    let chosen := spec_chosenSpeed (gps_spd d) (mpu_spd d) in
    (forall g, gps_spd d = Some g -> 0 < g ->
               chosen = g /\ spd r = if Qlt_le_dec g 0.8 then 0 else toFixed2 g) /\
    (chosen < 0.8 -> spd r = 0) /\
    (0.8 <= chosen ->
       spd r = toFixed2 chosen /\
       (exists n : Z, spd r = n # 100) /\
       chosen - 0.005 < spd r /\ spd r <= chosen + 0.005) /\
    (~ (0.795 <= chosen /\ chosen < 0.8) ->
       spd r = spec_speedKmh (gps_spd d) (mpu_spd d)).
Proof.
  intros sqrt now d r Hn chosen.
  unfold normalize in Hn. destruct (ax d); [| discriminate].
  injection Hn as <-. cbn [spd].
  rewrite rawSpeed_precedence. fold chosen.
  assert (Hlow : chosen < 0.8 -> speedOf chosen = 0).
  { intros H. unfold speedOf. destruct (Qltb_spec chosen 0.8); [reflexivity | contradiction]. }
  assert (Hhigh : 0.8 <= chosen -> speedOf chosen = toFixed2 chosen).
  { intros H. unfold speedOf. destruct (Qltb_spec chosen 0.8); [exfalso; lra | reflexivity]. }
  repeat split.
  - subst chosen. unfold spec_chosenSpeed. rewrite H.
    destruct (Qlt_le_dec 0 g); [reflexivity | exfalso; lra].
  - assert (E : chosen = g).
    { subst chosen. unfold spec_chosenSpeed. rewrite H.
      destruct (Qlt_le_dec 0 g); [reflexivity | exfalso; lra]. }
    rewrite E in *. destruct (Qlt_le_dec g 0.8); auto.
  - exact Hlow.
  - auto.
  - rewrite (Hhigh H). unfold toFixed2. eexists. reflexivity.
  - rewrite (Hhigh H). apply toFixed2_nearest.
  - rewrite (Hhigh H). apply toFixed2_nearest.
  - intros Hout. unfold spec_speedKmh.
    change (spec_chosenSpeed (gps_spd d) (mpu_spd d)) with chosen.
    destruct (Qlt_le_dec chosen 0.8) as [Hc | Hc].
    + rewrite (Hlow Hc).
      destruct (Qlt_le_dec (toFixed2 chosen) 0.8) as [| Hr]; [reflexivity |].
      exfalso. apply Hout. split; [| exact Hc].
      apply Qnot_lt_le. intros Hlt. apply toFixed2_lt_08 in Hlt. lra.
    + rewrite (Hhigh Hc).
      destruct (Qlt_le_dec (toFixed2 chosen) 0.8) as [Hr |]; [| reflexivity].
      exfalso. apply toFixed2_ge_08 in Hc. lra.
Qed.

(** The amended claim at GPS speed 12.3456 with inertial speed 3: the reading's
    speed is 12.35. *)
Lemma speed_snap_then_round_witness :
  normalize sqrt_down 0 (Some cruiseSample) =
    Some (mkReading cruiseSample (gForceOf sqrt_down cruiseSample) 12.35 Motorcycle 0) /\
  spec_chosenSpeed (gps_spd cruiseSample) (mpu_spd cruiseSample) = 12.3456 /\
  12.3456 - 0.005 < 12.35.
Proof.
  assert (Hn : normalize sqrt_down 0 (Some cruiseSample) =
               Some (mkReading cruiseSample (gForceOf sqrt_down cruiseSample)
                               12.35 Motorcycle 0)) by reflexivity.
  split; [exact Hn |].
  destruct (speed_snap_then_round sqrt_down 0 cruiseSample _ Hn)
    as (Hgps & _ & Hround & _).
  split.
  - apply (Hgps 12.3456); reflexivity.
  - apply Hround. discriminate.
Defined.

(** ** Skipping a sample *)

(** C6, the claim as stated fails on the code: a sample with the [y] and [z]
    components of the acceleration but no [x] component is skipped, and the
    state is left as it was, although its acceleration is not entirely
    absent. *)
Lemma skip_with_acceleration_counterexample :
  normalize sqrt_down 0 (Some noXSample) = None /\
  onData sqrt_down 0 (Some noXSample) mounted = mounted /\
  ~ spec_accelerationAbsent noXSample.
Proof.
  split; [reflexivity | split; [reflexivity |]].
  intros (_ & Hy & _). discriminate Hy.
Qed.

(** C6, amended.  A fetched sample is skipped exactly when the response is
    [null] or has no [ax] field; a skipped sample leaves the whole state as it
    was (nothing is appended, no crash check is made) and a sample with an
    [ax] field is processed, with or without [ay] and [az]: its reading
    becomes the current one and is appended to the history. *)
Theorem skip_iff_no_ax :
  forall (sqrt : Q -> Q) (now : Z) (data : option RawSample) (s : App),
    (normalize sqrt now data = None <->
       data = None \/ exists d, data = Some d /\ ax d = None) /\
    (normalize sqrt now data = None -> onData sqrt now data s = s) /\
    (forall d x, data = Some d -> ax d = Some x ->
       exists r, normalize sqrt now data = Some r /\
                 data_of r = d /\
                 telemetry (onData sqrt now data s) = Some r /\
                 history (onData sqrt now data s) = appendHistory r (history s)).
Proof.
  intros sqrt now data s. repeat split.
  - unfold normalize. destruct data as [d |]; [| now left].
    destruct (ax d) eqn:E; [discriminate |]. intros _. right. now exists d.
  - intros [-> | (d & -> & E)]; [reflexivity |]. unfold normalize. now rewrite E.
  - intros H. unfold onData. now rewrite H.
  - intros d x -> E. unfold onData, normalize. rewrite E.
    eexists. split; [reflexivity |]. split; [reflexivity |].
    cbn [gForce].
    destruct (greaterThan (gForceOf sqrt d) 3.5); split; reflexivity.
Qed.

(** The amended claim at a sample at rest, from the first render: it has an
    [ax] field, and its reading is the one entry of the history. *)
Lemma skip_iff_no_ax_witness :
  ax restSample = Some 0 /\
  exists r, normalize sqrt_down 0 (Some restSample) = Some r /\
            history (onData sqrt_down 0 (Some restSample) mounted) = [r].
Proof.
  split; [reflexivity |].
  destruct (skip_iff_no_ax sqrt_down 0 (Some restSample) mounted) as (_ & _ & H).
  destruct (H restSample 0 eq_refl eq_refl) as (r & Hn & _ & _ & Hh).
  exists r. split; [exact Hn | exact Hh].
Defined.

(** A sample with the [x] component alone is processed: its [G] is [NaN],
    which no comparison finds above 3.5, so it is stored and starts no
    countdown. *)
Example only_x_is_processed :
  option_map gForce (normalize sqrt_down 0 (Some onlyXSample)) = Some NaN /\
  length (history (after [Fetched 0 (Some onlyXSample)])) = 1%nat /\
  crashDetected (after [Fetched 0 (Some onlyXSample)]) = false.
Proof. repeat split. Qed.

(** ** History *)

Lemma appendHistory_length (r : Reading) (prev : list Reading) :
  length (appendHistory r prev) = S (Nat.min (length prev) 1000).
Proof.
  unfold appendHistory. rewrite length_app, length_skipn. cbn [length]. lia.
Qed.

(** With 1000 readings or fewer, nothing is dropped. *)
Lemma appendHistory_keeps_all (r : Reading) (prev : list Reading) :
  (length prev <= 1000)%nat -> appendHistory r prev = prev ++ [r].
Proof.
  intros H. unfold appendHistory.
  replace (length prev - 1000)%nat with 0%nat by lia. reflexivity.
Qed.

(** With 1001 readings, the oldest one is dropped. *)
Lemma appendHistory_drops_oldest (r oldest : Reading) (rest : list Reading) :
  length rest = 1000%nat -> appendHistory r (oldest :: rest) = rest ++ [r].
Proof.
  intros H. unfold appendHistory. cbn [length]. rewrite H. reflexivity.
Qed.

Lemma appendHistory_Forall (P : Reading -> Prop) (r : Reading) (prev : list Reading) :
  Forall P prev -> P r -> Forall P (appendHistory r prev).
Proof.
  intros Hprev Hr. unfold appendHistory. apply Forall_app. split.
  - rewrite <- (firstn_skipn (length prev - 1000) prev) in Hprev.
    apply Forall_app in Hprev. tauto.
  - constructor; [exact Hr | constructor].
Qed.

Section Runs.

Variable Math_sqrt : Q -> Q.

(** A property of the state that the first render has and every event keeps
    holds after every run. *)
Lemma run_invariant (Inv : App -> Prop) :
  Inv mounted ->
  (forall s e, Inv s -> Inv (step Math_sqrt s e)) ->
  forall events, Inv (run Math_sqrt mounted events).
Proof.
  intros H0 Hstep events. unfold run.
  generalize dependent mounted.
  induction events as [| e events IH]; intros s Hs; cbn [fold_left]; auto.
Qed.

Lemma history_triggerCrashSequence (seen : bool) (s : App) :
  history (triggerCrashSequence seen s) = history s.
Proof. destruct seen; reflexivity. Qed.

Lemma history_countdownTick (s : App) : history (countdownTick s) = history s.
Proof. unfold countdownTick. destruct (countdown s <=? 1)%Z; reflexivity. Qed.

(** Only a processed sample changes the history, by one append. *)
Lemma history_step (s : App) (e : Event) :
  history (step Math_sqrt s e) = history s \/
  exists now d r, e = Fetched now (Some d) /\
                  normalize Math_sqrt now (Some d) = Some r /\
                  history (step Math_sqrt s e) = appendHistory r (history s).
Proof.
  destruct e as [now data | id | |]; cbn [step].
  - unfold onData. destruct (normalize Math_sqrt now data) as [r |] eqn:E; [| now left].
    right. destruct data as [d |]; [| discriminate].
    exists now, d, r. split; [reflexivity |]. split; [exact E |].
    destruct (greaterThan (gForce r) 3.5); [apply history_triggerCrashSequence | reflexivity].
  - left. destruct (existsb (Nat.eqb id) (intervals s)); [apply history_countdownTick | reflexivity].
  - now left.
  - now left.
Qed.

Lemma normalize_speed (now : Z) (d : RawSample) (r : Reading) :
  normalize Math_sqrt now (Some d) = Some r -> spd r = speedOf (rawSpeed d).
Proof.
  unfold normalize. destruct (ax d); [| discriminate]. now intros [= <-].
Qed.

End Runs.

(** C9.  After any sequence of events, no reading in the history has a speed
    strictly between 0 and 0.8: each stored speed is 0 or at least 0.8. *)
Theorem stored_speed_outside_jitter_gap :
  forall (sqrt : Q -> Q) (events : list Event),
    Forall (fun r => (spd r = 0 \/ 0.8 <= spd r) /\ ~ (0 < spd r /\ spd r < 0.8))
           (history (run sqrt mounted events)).
Proof.
  intros sqrt. apply (run_invariant sqrt (fun s => Forall _ (history s))).
  - constructor.
  - intros s e IH.
    destruct (history_step sqrt s e) as [-> | (now & d & r & _ & Hn & ->)]; [exact IH |].
    apply appendHistory_Forall; [exact IH |].
    rewrite (normalize_speed sqrt now d r Hn).
    destruct (speedOf_gap (rawSpeed d)) as [-> | H].
    + split; [now left | intros [H _]; discriminate H].
    + split; [now right | lra].
Qed.

(** Two stored readings: GPS speed 0.797 is stored as 0, 12.3456 as 12.35. *)
Lemma stored_speed_outside_jitter_gap_witness :
  map spd (history (after [Fetched 0 (Some jitterEdgeSample);
                           Fetched 500 (Some cruiseSample)])) = [0; 12.35] /\
  Forall (fun r => (spd r = 0 \/ 0.8 <= spd r) /\ ~ (0 < spd r /\ spd r < 0.8))
         (history (after [Fetched 0 (Some jitterEdgeSample);
                          Fetched 500 (Some cruiseSample)])).
Proof.
  split; [reflexivity |].
  apply (stored_speed_outside_jitter_gap sqrt_down).
Defined.

(** The bound the code keeps on the history: after any sequence of events it
    holds at most 1001 readings. *)
Lemma history_at_most_1001 (sqrt : Q -> Q) (events : list Event) :
  (length (history (run sqrt mounted events)) <= 1001)%nat.
Proof.
  apply (run_invariant sqrt (fun s => (length (history s) <= 1001)%nat)).
  - cbn. lia.
  - intros s e IH.
    destruct (history_step sqrt s e) as [-> | (now & d & r & _ & _ & ->)]; [exact IH |].
    rewrite appendHistory_length. lia.
Qed.

(** C5, on the code: 1500 readings appended one by one leave 1001 readings in
    the history, not 1000: the 500th to the 1500th, oldest first.  The slice
    keeps 1000 readings and the new one is added to them. *)
Theorem history_after_1500_appends :
  length (history (after (polls 1500 0 restSample))) = 1001%nat /\
  map timestamp (history (after (polls 1500 0 restSample))) =
    map (fun k => (500 * Z.of_nat k)%Z) (seq 499 1001) /\
  length (history (after (polls 1000 0 restSample))) = 1000%nat /\
  length (history (after (polls 1001 0 restSample))) = 1001%nat /\
  map timestamp (history (after (polls 1001 0 restSample))) =
    map (fun k => (500 * Z.of_nat k)%Z) (seq 0 1001).
Proof.
  split; [vm_compute; reflexivity |].
  split; [vm_compute; reflexivity |].
  split; [vm_compute; reflexivity |].
  split; vm_compute; reflexivity.
Qed.

(** ** The countdown controller *)

Lemma stop_idempotent (handle : option nat) (running : list nat) :
  stop handle (stop handle running) = stop handle running.
Proof.
  destruct handle as [id |]; cbn [stop]; [| reflexivity].
  induction running as [| j running IH]; cbn [filter]; [reflexivity |].
  destruct (negb (j =? id)%nat) eqn:E; cbn [filter]; [rewrite E; f_equal |]; exact IH.
Qed.

Lemma seenByPoll_false : seenByPoll = false.
Proof. reflexivity. Qed.

(** The handler of a sample with [G > 3.5] starts a countdown from 30 with an
    interval of its own, whatever the state was. *)
Lemma onData_crash (sqrt : Q -> Q) (now : Z) (d : RawSample) (r : Reading) (s : App) :
  normalize sqrt now (Some d) = Some r ->
  greaterThan (gForce r) 3.5 = true ->
  onData sqrt now (Some d) s =
    startCountdownInterval
      (setCountdown 30
         (setCrashDetected true
            (setHistory (appendHistory r) (setTelemetry r s)))).
Proof.
  intros Hn Hg. unfold onData. rewrite Hn, Hg. reflexivity.
Qed.

Lemma quietWhenIdle_step (sqrt : Q -> Q) (s : App) (e : Event) :
  quietWhenIdle s -> quietWhenIdle (step sqrt s e).
Proof.
  intros Hs. destruct e as [now data | id | |]; cbn [step].
  - unfold onData. destruct (normalize sqrt now data) as [r |]; [| exact Hs].
    destruct (greaterThan (gForce r) 3.5).
    + rewrite seenByPoll_false. intros H. discriminate H.
    + exact Hs.
  - destruct (existsb (Nat.eqb id) (intervals s)); [| exact Hs].
    unfold countdownTick. destruct (countdown s <=? 1)%Z eqn:E.
    + intros _. split; [reflexivity | apply stop_idempotent].
    + intros H. cbn in H. destruct (Hs H) as [H0 _]. rewrite H0 in E. discriminate E.
  - intros _. split; [reflexivity | apply stop_idempotent].
  - exact Hs.
Qed.

Lemma cancelEmergency_when_quiet (s : App) :
  crashDetected s = false -> quietWhenIdle s -> cancelEmergency s = s.
Proof.
  intros Hflag Hs. destruct (Hs Hflag) as [H0 Hstop].
  destruct s as [t c n h ref ints next calls]. cbn in *.
  unfold cancelEmergency, setCountdown, setCrashDetected, clearCountdownInterval. cbn.
  now rewrite Hflag, H0, Hstop.
Qed.

(** C10.  Cancelling twice is cancelling once, in every state.  In every state
    the component can reach in which no crash is flagged, the counter is 0 and
    cancelling changes nothing at all. *)
Theorem cancelEmergency_idempotent :
  (forall s : App, cancelEmergency (cancelEmergency s) = cancelEmergency s) /\
  (forall (sqrt : Q -> Q) (events : list Event),
      crashDetected (run sqrt mounted events) = false ->
      countdown (run sqrt mounted events) = 0%Z /\
      cancelEmergency (run sqrt mounted events) = run sqrt mounted events).
Proof.
  split.
  - intros s. unfold cancelEmergency, setCountdown, setCrashDetected, clearCountdownInterval.
    cbn. now rewrite stop_idempotent.
  - intros sqrt events Hflag.
    assert (Hq : quietWhenIdle (run sqrt mounted events)).
    { apply run_invariant.
      - intros _. split; reflexivity.
      - intros s e. apply quietWhenIdle_step. }
    split; [apply (Hq Hflag) | now apply cancelEmergency_when_quiet].
Qed.

(** After a crash sample, a tick and a cancel no crash is flagged, and a
    second cancel changes nothing. *)
Lemma cancelEmergency_idempotent_witness :
  crashDetected (after [Fetched 0 (Some crashSample); Tick 1; Cancel]) = false /\
  cancelEmergency (after [Fetched 0 (Some crashSample); Tick 1; Cancel]) =
    after [Fetched 0 (Some crashSample); Tick 1; Cancel].
Proof.
  split; [reflexivity |].
  apply (proj2 cancelEmergency_idempotent sqrt_down
               [Fetched 0 (Some crashSample); Tick 1; Cancel]).
  reflexivity.
Defined.

(** *** The transitions of one episode *)

Lemma stop_only (id : nat) (running : list nat) :
  (forall j, In j running -> j = id) -> stop (Some id) running = [].
Proof.
  intros H. cbn [stop]. induction running as [| j running IH]; [reflexivity |].
  cbn [filter]. rewrite (H j (or_introl eq_refl)), Nat.eqb_refl. cbn [negb].
  apply IH. intros k Hk. apply H. now right.
Qed.

Lemma run_ticks_nothing_running (sqrt : Q -> Q) (s : App) (ids : list nat) :
  intervals s = [] -> run sqrt s (map Tick ids) = s.
Proof.
  intros H. induction ids as [| id ids IH]; [reflexivity |].
  cbn [map run fold_left step]. rewrite H. cbn [existsb]. exact IH.
Qed.

(** X1.  From a state with no crash flagged, a processed sample with
    [G > 3.5] raises the flag, sets the counter to 30, starts a new interval
    and points the ref at it; nothing is dialled. *)
Lemma crash_sample_starts_countdown :
  forall (sqrt : Q -> Q) (now : Z) (d : RawSample) (r : Reading) (s : App),
    crashDetected s = false ->
    normalize sqrt now (Some d) = Some r ->
    greaterThan (gForce r) 3.5 = true ->
    let s' := step sqrt s (Fetched now (Some d)) in
    crashDetected s' = true /\ countdown s' = 30%Z /\
    countdownRef s' = Some (nextInterval s) /\
    intervals s' = intervals s ++ [nextInterval s] /\
    dialled s' = dialled s.
Proof.
  intros sqrt now d r s _ Hn Hg. cbn [step].
  rewrite (onData_crash sqrt now d r s Hn Hg). repeat split.
Qed.

Lemma crash_sample_starts_countdown_witness :
  crashDetected mounted = false /\
  greaterThan (gForceOf sqrt_down crashSample) 3.5 = true /\
  crashDetected (after [Fetched 0 (Some crashSample)]) = true /\
  countdown (after [Fetched 0 (Some crashSample)]) = 30%Z.
Proof.
  split; [reflexivity |]. split; [reflexivity |].
  pose proof (crash_sample_starts_countdown sqrt_down 0 crashSample _ mounted
                eq_refl eq_refl eq_refl) as H.
  split; apply H.
Defined.

(** X2.  A tick of a running interval with the counter above 1 takes one
    second off and does nothing else. *)
Lemma tick_counts_down (sqrt : Q -> Q) (s : App) (id : nat) :
  existsb (Nat.eqb id) (intervals s) = true ->
  (1 < countdown s)%Z ->
  step sqrt s (Tick id) = setCountdown (countdown s - 1) s.
Proof.
  intros Hrun Hn. cbn [step]. rewrite Hrun. unfold countdownTick.
  destruct (Z.leb_spec (countdown s) 1); [lia | reflexivity].
Qed.

Lemma tick_counts_down_witness :
  countdown (step sqrt_down (after [Fetched 0 (Some crashSample)]) (Tick 1)) = 29%Z.
Proof.
  rewrite (tick_counts_down sqrt_down (after [Fetched 0 (Some crashSample)]) 1%nat);
    [reflexivity | reflexivity | reflexivity].
Defined.


(** Call Now dials and changes nothing else. *)
Lemma callEmergency_only_dials (s : App) :
  dialled (callEmergency s) = dialled s ++ [EMERGENCY_NUMBER] /\
  crashDetected (callEmergency s) = crashDetected s /\
  countdown (callEmergency s) = countdown s /\
  countdownRef (callEmergency s) = countdownRef s /\
  intervals (callEmergency s) = intervals s.
Proof. repeat split. Qed.

(** X3.  When the interval the ref names is the only one running, cancelling
    stops it, lowers the flag, zeroes the counter, and no later tick does anything:
    nothing is dialled and the state stays as the cancel left it. *)
Lemma cancel_single_interval (sqrt : Q -> Q) (s : App) (id : nat) (ids : list nat) :
  countdownRef s = Some id ->
  (forall j, In j (intervals s) -> j = id) ->
  crashDetected (cancelEmergency s) = false /\
  countdown (cancelEmergency s) = 0%Z /\
  intervals (cancelEmergency s) = [] /\
  dialled (cancelEmergency s) = dialled s /\
  run sqrt (cancelEmergency s) (map Tick ids) = cancelEmergency s.
Proof.
  intros Href Honly.
  assert (Hnone : intervals (cancelEmergency s) = []).
  { cbn. rewrite Href. now apply stop_only. }
  repeat split; try reflexivity; [exact Hnone |].
  now apply run_ticks_nothing_running.
Qed.

Lemma cancel_single_interval_witness :
  countdownRef (after [Fetched 0 (Some crashSample)]) = Some 1%nat /\
  intervals (after [Fetched 0 (Some crashSample)]) = [1%nat] /\
  run sqrt_down (cancelEmergency (after [Fetched 0 (Some crashSample)]))
      (map Tick [1; 1; 2]%nat) =
    cancelEmergency (after [Fetched 0 (Some crashSample)]).
Proof.
  split; [reflexivity |]. split; [reflexivity |].
  apply (cancel_single_interval sqrt_down _ 1%nat); [reflexivity |].
  intros j [<- | []]. reflexivity.
Defined.

(** *** The code on the controller claims *)

(** C1, on the code.  Two samples with [G = 4] in a row start two intervals,
    because the poll handler's [triggerCrashSequence] still sees the first
    render's [crashDetected]; the ref names the second only.  Cancel lowers
    the flag and zeroes the counter but stops the second interval alone, and
    the next tick of the first one dials the emergency number. *)
Theorem cancel_leaves_stacked_interval :
  let s := after [Fetched 0 (Some crashSample); Fetched 500 (Some crashSample)] in
  (crashDetected s = true /\ countdown s = 30%Z /\
   countdownRef s = Some 2%nat /\ intervals s = [1; 2]%nat) /\
  let s' := step sqrt_down s Cancel in
  (crashDetected s' = false /\ countdown s' = 0%Z /\
   intervals s' = [1%nat] /\ dialled s' = []) /\
  let s'' := step sqrt_down s' (Tick 1) in
  crashDetected s'' = false /\ countdown s'' = 0%Z /\
  dialled s'' = [EMERGENCY_NUMBER] /\
  dialled (step sqrt_down s'' (Tick 1)) = [EMERGENCY_NUMBER; EMERGENCY_NUMBER].
Proof.
  vm_compute. repeat split.
Qed.

(** C2, on the code.  One crash sample and 29 ticks lead to the flag up, the
    counter at 1 and one interval running.  The next tick dials exactly once,
    zeroes the counter and stops the interval, but the flag stays up: the
    expiry branch never calls [setCrashDetected(false)]. *)
Theorem expiry_keeps_flag :
  let s := after (Fetched 0 (Some crashSample) :: repeat (Tick 1) 29) in
  (crashDetected s = true /\ countdown s = 1%Z /\
   intervals s = [1%nat] /\ dialled s = []) /\
  let s' := step sqrt_down s (Tick 1) in
  dialled s' = [EMERGENCY_NUMBER] /\ countdown s' = 0%Z /\ intervals s' = [] /\
  crashDetected s' = true.
Proof.
  vm_compute. repeat split.
Qed.

(** C3, on the code.  From the first render a sample with [G = 4] raises the
    flag, sets the counter to 30 and starts one interval.  After one tick the
    counter is 29; a second such sample sets it back to 30 and starts a second
    interval beside the first.  The guard of line 90 would have ignored it had
    it seen the flag up ([triggerCrashSequence true s = s]), but the poll
    handler's copy sees [false] for ever. *)
Theorem crash_while_active_restarts :
  let s1 := after [Fetched 0 (Some crashSample)] in
  (option_map (fun r => greaterThan (gForce r) 3.5) (telemetry s1) = Some true /\
   crashDetected s1 = true /\ countdown s1 = 30%Z /\ intervals s1 = [1%nat]) /\
  let s2 := step sqrt_down s1 (Tick 1) in
  (crashDetected s2 = true /\ countdown s2 = 29%Z) /\
  let s3 := step sqrt_down s2 (Fetched 1000 (Some crashSample)) in
  (crashDetected s3 = true /\ countdown s3 = 30%Z /\
   countdownRef s3 = Some 2%nat /\ intervals s3 = [1; 2]%nat) /\
  triggerCrashSequence true s2 = s2 /\
  seenByPoll = false.
Proof.
  vm_compute. repeat split.
Qed.

(** C4, on the code.  With the counter at 20, Call Now dials as the expiry
    does, but the flag stays up, the counter stays at 20 and the interval
    keeps running; 20 ticks later the expiry dials a second time. *)
Theorem call_now_leaves_countdown_running :
  let s := after (Fetched 0 (Some crashSample) :: repeat (Tick 1) 10) in
  (crashDetected s = true /\ countdown s = 20%Z /\
   intervals s = [1%nat] /\ dialled s = []) /\
  let s' := step sqrt_down s CallNow in
  (dialled s' = [EMERGENCY_NUMBER] /\ crashDetected s' = true /\
   countdown s' = 20%Z /\ intervals s' = [1%nat]) /\
  dialled (run sqrt_down s' (repeat (Tick 1) 20)) =
    [EMERGENCY_NUMBER; EMERGENCY_NUMBER].
Proof.
  vm_compute. repeat split.
Qed.

(** * Further properties of the code *)

(** ** The history as a window on the processed readings *)

Lemma lastN_rev {A : Type} (n : nat) (l : list A) :
  rev (lastN n l) = firstn n (rev l).
Proof. unfold lastN. symmetry. apply firstn_rev. Qed.

Lemma lastN_as_rev {A : Type} (n : nat) (l : list A) :
  lastN n l = rev (firstn n (rev l)).
Proof. rewrite <- lastN_rev. symmetry. apply rev_involutive. Qed.

Lemma firstn_app_firstn {A : Type} (n : nat) (a b : list A) :
  firstn n (a ++ firstn n b) = firstn n (a ++ b).
Proof.
  rewrite !firstn_app, firstn_firstn. f_equal. f_equal. lia.
Qed.

Lemma lastN_app_lastN {A : Type} (n : nat) (l l' : list A) :
  lastN n (lastN n l ++ l') = lastN n (l ++ l').
Proof.
  rewrite !lastN_as_rev. f_equal.
  rewrite !rev_app_distr, rev_involutive. apply firstn_app_firstn.
Qed.

Lemma appendHistory_window (r : Reading) (prev : list Reading) :
  appendHistory r prev = lastN 1001 (prev ++ [r]).
Proof.
  unfold appendHistory, lastN. rewrite length_app. cbn [length].
  replace (length prev + 1 - 1001)%nat with (length prev - 1000)%nat by lia.
  rewrite skipn_app.
  replace (length prev - 1000 - length prev)%nat with 0%nat by lia.
  reflexivity.
Qed.

Lemma processed_app (sqrt : Q -> Q) (es1 es2 : list Event) :
  processed sqrt (es1 ++ es2) = processed sqrt es1 ++ processed sqrt es2.
Proof.
  induction es1 as [| e es1 IH]; [reflexivity |].
  destruct e as [now data | id | |]; cbn [app processed]; try exact IH.
  destruct (normalize sqrt now data); cbn [app]; now rewrite IH.
Qed.

Lemma run_snoc (sqrt : Q -> Q) (s : App) (events : list Event) (e : Event) :
  run sqrt s (events ++ [e]) = step sqrt (run sqrt s events) e.
Proof. unfold run. now rewrite fold_left_app. Qed.

Lemma history_step_processed (sqrt : Q -> Q) (s : App) (e : Event) :
  history (step sqrt s e) = lastN 1001 (history s ++ processed sqrt [e]) \/
  (processed sqrt [e] = [] /\ history (step sqrt s e) = history s).
Proof.
  destruct e as [now data | id | |]; cbn [step processed].
  - unfold onData. destruct (normalize sqrt now data) as [r |]; [left | now right].
    rewrite <- appendHistory_window.
    destruct (greaterThan (gForce r) 3.5); [apply history_triggerCrashSequence | reflexivity].
  - right. split; [reflexivity |].
    destruct (existsb (Nat.eqb id) (intervals s)); [apply history_countdownTick | reflexivity].
  - now right.
  - now right.
Qed.

(** X4.  After any sequence of polls, ticks and button presses from the first
    render, the history is the last 1001 of the readings processed so far, in
    arrival order (all of them while there are at most 1001). *)
Theorem history_is_last_1001_processed :
  forall (sqrt : Q -> Q) (events : list Event),
    history (run sqrt mounted events) = lastN 1001 (processed sqrt events).
Proof.
  intros sqrt events. induction events as [| e events IH] using rev_ind.
  - reflexivity.
  - rewrite run_snoc, processed_app.
    destruct (history_step_processed sqrt (run sqrt mounted events) e)
      as [H | [Hnone H]]; rewrite H.
    + rewrite IH. apply lastN_app_lastN.
    + now rewrite Hnone, app_nil_r.
Qed.

(** ** The current reading and the order of the history *)

Lemma newest_snoc {A : Type} (l : list A) (x : A) : newest (l ++ [x]) = Some x.
Proof. unfold newest. now rewrite rev_app_distr. Qed.

Lemma telemetry_triggerCrashSequence (seen : bool) (s : App) :
  telemetry (triggerCrashSequence seen s) = telemetry s.
Proof. destruct seen; reflexivity. Qed.

Lemma telemetry_countdownTick (s : App) : telemetry (countdownTick s) = telemetry s.
Proof. unfold countdownTick. destruct (countdown s <=? 1)%Z; reflexivity. Qed.

(** X5.  After any sequence of events the current reading ([telemetry]) is
    the newest entry of the history; both are empty until the first sample is
    processed. *)
Theorem telemetry_is_newest_in_history :
  forall (sqrt : Q -> Q) (events : list Event),
    telemetry (run sqrt mounted events) = newest (history (run sqrt mounted events)).
Proof.
  intros sqrt.
  apply (run_invariant sqrt (fun s => telemetry s = newest (history s))); [reflexivity |].
  intros s e IH. destruct e as [now data | id | |]; cbn [step]; try exact IH.
  - unfold onData. destruct (normalize sqrt now data) as [r |]; [| exact IH].
    destruct (greaterThan (gForce r) 3.5).
    + rewrite telemetry_triggerCrashSequence, history_triggerCrashSequence.
      cbn. unfold appendHistory. now rewrite newest_snoc.
    + cbn. unfold appendHistory. now rewrite newest_snoc.
  - destruct (existsb (Nat.eqb id) (intervals s)); [| exact IH].
    now rewrite telemetry_countdownTick, history_countdownTick.
Qed.

Lemma sorted_app_inv (a b : list Z) :
  StronglySorted Z.le (a ++ b) ->
  StronglySorted Z.le a /\ StronglySorted Z.le b /\
  (forall x y, In x a -> In y b -> (x <= y)%Z).
Proof.
  induction a as [| h a IH]; cbn [app]; intros H.
  - repeat split; [constructor | exact H | intros x y []].
  - inversion H as [| ? ? Hs Hall]; subst. destruct (IH Hs) as (Ha & Hb & Hab).
    rewrite Forall_app in Hall. destruct Hall as [Hha Hhb].
    repeat split; [constructor; assumption | exact Hb |].
    intros x y [<- | Hx] Hy; [| now apply Hab].
    rewrite Forall_forall in Hhb. now apply Hhb.
Qed.

Lemma sorted_app (a b : list Z) :
  StronglySorted Z.le a -> StronglySorted Z.le b ->
  (forall x y, In x a -> In y b -> (x <= y)%Z) ->
  StronglySorted Z.le (a ++ b).
Proof.
  induction a as [| h a IH]; cbn [app]; intros Ha Hb Hab; [exact Hb |].
  inversion Ha as [| ? ? Hs Hall]; subst. constructor.
  - apply IH; [exact Hs | exact Hb |]. intros x y Hx. apply Hab. now right.
  - rewrite Forall_app. split; [exact Hall |].
    rewrite Forall_forall. intros y Hy. apply Hab; [now left | exact Hy].
Qed.

Lemma sorted_drop_middle (a b : list Z) (x : Z) :
  StronglySorted Z.le (a ++ x :: b) -> StronglySorted Z.le (a ++ b).
Proof.
  intros H. apply sorted_app_inv in H. destruct H as (Ha & Hxb & Hab).
  inversion Hxb; subst.
  apply sorted_app; [exact Ha | assumption |].
  intros u v Hu Hv. apply Hab; [exact Hu | now right].
Qed.

Lemma normalize_timestamp (sqrt : Q -> Q) (now : Z) (d : RawSample) (r : Reading) :
  normalize sqrt now (Some d) = Some r -> timestamp r = now.
Proof.
  unfold normalize. destruct (ax d); [| discriminate]. now intros [= <-].
Qed.

Lemma history_sorted_from (sqrt : Q -> Q) (events : list Event) :
  forall s : App,
    StronglySorted Z.le (map timestamp (history s) ++ pollTimes events) ->
    StronglySorted Z.le (map timestamp (history (run sqrt s events))).
Proof.
  induction events as [| e events IH]; intros s H.
  - cbn in *. now rewrite app_nil_r in H.
  - change (run sqrt s (e :: events)) with (run sqrt (step sqrt s e) events).
    apply IH.
    destruct (history_step sqrt s e) as [-> | (now & d & r & -> & Hn & ->)].
    + destruct e as [now data | id | |]; cbn [pollTimes] in H; try exact H.
      now apply sorted_drop_middle in H.
    + cbn [pollTimes] in H. unfold appendHistory.
      rewrite map_app. cbn [map]. rewrite (normalize_timestamp sqrt now d r Hn).
      rewrite <- app_assoc. cbn [app].
      rewrite <- (firstn_skipn (length (history s) - 1000) (history s)) in H at 1.
      rewrite map_app, <- app_assoc in H.
      apply sorted_app_inv in H. tauto.
Qed.

(** X6.  When the clock read at the polls never goes back, the history is in
    time order, oldest first, whatever ticks and button presses come in
    between. *)
Theorem history_in_time_order :
  forall (sqrt : Q -> Q) (events : list Event),
    StronglySorted Z.le (pollTimes events) ->
    StronglySorted Z.le (map timestamp (history (run sqrt mounted events))).
Proof.
  intros sqrt events H. apply history_sorted_from. exact H.
Qed.

Lemma history_in_time_order_witness :
  pollTimes (Fetched 0 (Some restSample) :: Tick 1 ::
             Fetched 500 (Some noXSample) :: polls 2 1000 crashSample) =
    [0; 500; 1000; 1500]%Z /\
  map timestamp
      (history (after (Fetched 0 (Some restSample) :: Tick 1 ::
                       Fetched 500 (Some noXSample) :: polls 2 1000 crashSample))) =
    [0; 1000; 1500]%Z /\
  StronglySorted Z.le
    (map timestamp
         (history (after (Fetched 0 (Some restSample) :: Tick 1 ::
                          Fetched 500 (Some noXSample) :: polls 2 1000 crashSample)))).
Proof.
  split; [reflexivity |]. split; [reflexivity |].
  apply (history_in_time_order sqrt_down). cbn.
  repeat (constructor; [| repeat constructor; lia]). constructor.
Defined.

(** ** The crash test on the raw sample *)

(** X7.  A sample that has [ax] but lacks [ay] or [az] is processed: its
    reading has [NaN] for the G-force, becomes the current reading and enters
    the history, and the controller is left alone whatever [ax] is. *)
Theorem sample_without_y_or_z_cannot_crash :
  forall (sqrt : Q -> Q) (now : Z) (d : RawSample) (x : Q) (s : App),
    ax d = Some x ->
    ay d = None \/ az d = None ->
    exists r, normalize sqrt now (Some d) = Some r /\
              gForce r = NaN /\
              onData sqrt now (Some d) s =
                setHistory (appendHistory r) (setTelemetry r s).
Proof.
  intros sqrt now d x s Hx Hyz.
  assert (Hg : gForceOf sqrt d = NaN).
  { unfold gForceOf. rewrite Hx.
    destruct Hyz as [-> | ->]; [reflexivity |]. destruct (ay d); reflexivity. }
  unfold onData, normalize. rewrite Hx. eexists.
  split; [reflexivity |]. cbn [gForce]. rewrite Hg. split; reflexivity.
Qed.

Lemma sample_without_y_or_z_cannot_crash_witness :
  ax onlyXSample = Some 39.2 /\
  ay onlyXSample = None /\
  crashDetected (onData sqrt_down 0 (Some onlyXSample) mounted) = false /\
  length (history (onData sqrt_down 0 (Some onlyXSample) mounted)) = 1%nat.
Proof.
  split; [reflexivity |]. split; [reflexivity |].
  destruct (sample_without_y_or_z_cannot_crash sqrt_down 0 onlyXSample 39.2 mounted
              eq_refl (or_introl eq_refl)) as (r & _ & _ & ->).
  split; reflexivity.
Defined.



(** ** The ride mode on the unrounded speed *)

Lemma Qfloor_lt_iff (y : Q) (n : Z) : (Qfloor y < n)%Z <-> y < inject_Z n.
Proof.
  split; intros H.
  - eapply Qlt_le_trans; [apply Qlt_floor |].
    rewrite <- Zle_Qle. lia.
  - rewrite Zlt_Qlt. eapply Qle_lt_trans; [apply Qfloor_le | exact H].
Qed.

Lemma toFixed2_lt_iff (x : Q) (n : Z) :
  toFixed2 x < n # 100 <-> x * 100 + 0.5 < inject_Z n.
Proof.
  rewrite <- Qfloor_lt_iff. unfold toFixed2, Qlt. cbn [Qnum Qden]. lia.
Qed.

(** X9.  Because the speed is rounded before it is classified, the bands on
    the chosen (unrounded) speed start 0.005 lower: the reading is [Idle]
    below 1.695, [Walking] from 1.695 up to 5.495, [Scooter] from 5.495 up to
    9.595 and [Motorcycle] from 9.595 on. *)
Theorem rideMode_on_unrounded_speed :
  forall chosen : Q,
    (rideModeOf (speedOf chosen) = Idle <-> chosen < 1.695) /\
    (rideModeOf (speedOf chosen) = Walking <-> 1.695 <= chosen /\ chosen < 5.495) /\
    (rideModeOf (speedOf chosen) = Scooter <-> 5.495 <= chosen /\ chosen < 9.595) /\
    (rideModeOf (speedOf chosen) = Motorcycle <-> 9.595 <= chosen).
Proof.
  intros chosen. unfold speedOf.
  destruct (Qltb_spec chosen 0.8) as [Hjit | Hjit].
  - change (rideModeOf 0) with Idle.
    repeat split; intros; try discriminate; try reflexivity; lra.
  - pose proof (toFixed2_lt_iff chosen 170) as H1.
    pose proof (toFixed2_lt_iff chosen 550) as H2.
    pose proof (toFixed2_lt_iff chosen 960) as H3.
    change (inject_Z 170) with 170 in H1.
    change (inject_Z 550) with 550 in H2.
    change (inject_Z 960) with 960 in H3.
    assert (E1 : toFixed2 chosen < 1.7 <-> chosen < 1.695).
    { split; intros H.
      - assert (H' : toFixed2 chosen < 170 # 100) by lra. apply H1 in H'. lra.
      - assert (H' : toFixed2 chosen < 170 # 100) by (apply H1; lra). lra. }
    assert (E2 : toFixed2 chosen < 5.5 <-> chosen < 5.495).
    { split; intros H.
      - assert (H' : toFixed2 chosen < 550 # 100) by lra. apply H2 in H'. lra.
      - assert (H' : toFixed2 chosen < 550 # 100) by (apply H2; lra). lra. }
    assert (E3 : toFixed2 chosen < 9.6 <-> chosen < 9.595).
    { split; intros H.
      - assert (H' : toFixed2 chosen < 960 # 100) by lra. apply H3 in H'. lra.
      - assert (H' : toFixed2 chosen < 960 # 100) by (apply H3; lra). lra. }
    unfold rideModeOf.
    destruct (Qltb_spec (toFixed2 chosen) 1.7) as [G1 | G1];
      [| destruct (Qltb_spec (toFixed2 chosen) 5.5) as [G2 | G2];
         [| destruct (Qltb_spec (toFixed2 chosen) 9.6) as [G3 | G3]]];
      rewrite ?E1, ?E2, ?E3 in *;
      repeat split; intros; try discriminate; try reflexivity; try lra.
Qed.

(** ** The controller over whole runs *)

(** X10.  After any sequence of events the counter is between 0 and 30. *)
Theorem countdown_between_0_and_30 :
  forall (sqrt : Q -> Q) (events : list Event),
    (0 <= countdown (run sqrt mounted events) <= 30)%Z.
Proof.
  intros sqrt.
  apply (run_invariant sqrt (fun s => (0 <= countdown s <= 30)%Z)); [cbn; lia |].
  intros s e IH. destruct e as [now data | id | |]; cbn [step].
  - unfold onData. destruct (normalize sqrt now data) as [r |]; [| exact IH].
    destruct (greaterThan (gForce r) 3.5); [cbn; lia | exact IH].
  - destruct (existsb (Nat.eqb id) (intervals s)); [| exact IH].
    unfold countdownTick. destruct (Z.leb_spec (countdown s) 1); cbn; lia.
  - cbn. lia.
  - exact IH.
Qed.

(** X11.  Nothing is dialled unprompted: in a run in which no poll passes the
    test of line 80 and Call Now is never pressed, nothing is dialled, no
    crash is flagged and no countdown interval runs, whatever else happens. *)
Theorem nothing_dialled_without_crash_or_call :
  forall (sqrt : Q -> Q) (events : list Event),
    Forall (fun e => startsCountdown sqrt e = false /\ isCallNow e = false) events ->
    dialled (run sqrt mounted events) = [] /\
    crashDetected (run sqrt mounted events) = false /\
    countdown (run sqrt mounted events) = 0%Z /\
    intervals (run sqrt mounted events) = [].
Proof.
  intros sqrt events. unfold run.
  assert (H0 : dialled mounted = [] /\ crashDetected mounted = false /\
               countdown mounted = 0%Z /\ intervals mounted = []) by (repeat split).
  revert H0. generalize mounted.
  induction events as [| e events IH]; intros s Hs Hev; [exact Hs |].
  inversion Hev as [| ? ? [Hcrash Hcall] Hrest]; subst.
  cbn [fold_left]. apply IH; [| exact Hrest].
  destruct Hs as (Hd & Hf & Hc & Hi).
  destruct e as [now data | id | |]; cbn [step].
  - cbn [startsCountdown] in Hcrash. unfold onData.
    destruct (normalize sqrt now data) as [r |]; [| repeat split; assumption].
    rewrite Hcrash. repeat split; assumption.
  - rewrite Hi. cbn [existsb]. repeat split; assumption.
  - cbn. rewrite Hi. repeat split; [exact Hd | now destruct (countdownRef s)].
  - discriminate Hcall.
Qed.

Lemma nothing_dialled_without_crash_or_call_witness :
  dialled (after [Fetched 0 (Some restSample); Tick 1; Cancel;
                  Fetched 500 (Some onlyXSample); Fetched 1000 None]) = [] /\
  length (history (after [Fetched 0 (Some restSample); Tick 1; Cancel;
                          Fetched 500 (Some onlyXSample); Fetched 1000 None])) = 2%nat.
Proof.
  split; [| reflexivity].
  apply (nothing_dialled_without_crash_or_call sqrt_down).
  repeat (constructor; [split; reflexivity |]). constructor.
Defined.

(** *** One crash, left alone *)







(** ** The history view *)

Lemma historyRows_as_firstn (h : list Reading) :
  historyRows h = map rowOf (firstn 20 (rev h)).
Proof. unfold historyRows. now rewrite lastN_rev. Qed.

(** X13.  The history view shows the placeholder exactly when the history is
    empty; otherwise it lists the newest readings first, 20 at most: line [i]
    (from 0) is the reading [i] places before the end of the history. *)
Theorem historyView_newest_first :
  forall h : list Reading,
    (HistoryView h = NoRides <-> h = []) /\
    length (historyRows h) = Nat.min 20 (length h) /\
    (forall i : nat, (i < Nat.min 20 (length h))%nat ->
        nth_error (historyRows h) i =
        option_map rowOf (nth_error h (length h - 1 - i))).
Proof.
  intros h. split; [| split].
  - unfold HistoryView. destruct h as [| r h]; cbn [length Nat.eqb].
    + split; reflexivity.
    + split; discriminate.
  - rewrite historyRows_as_firstn, length_map, length_firstn, length_rev. reflexivity.
  - intros i Hi. rewrite historyRows_as_firstn, nth_error_map, nth_error_firstn.
    destruct (Nat.ltb_spec i 20) as [_ | H]; [| lia].
    rewrite nth_error_rev.
    destruct (Nat.ltb_spec i (length h)) as [_ | H]; [| lia].
    do 2 f_equal. lia.
Qed.

(** X14.  A processed sample enters the history view on top and moves the
    other lines down by one; the line that was 20th leaves the view. *)
Theorem historyView_after_sample :
  forall (sqrt : Q -> Q) (now : Z) (d : RawSample) (r : Reading) (s : App),
    normalize sqrt now (Some d) = Some r ->
    historyRows (history (step sqrt s (Fetched now (Some d)))) =
      rowOf r :: firstn 19 (historyRows (history s)).
Proof.
  intros sqrt now d r s Hn.
  assert (Hh : history (step sqrt s (Fetched now (Some d))) = appendHistory r (history s)).
  { cbn [step]. unfold onData. rewrite Hn.
    destruct (greaterThan (gForce r) 3.5); [apply history_triggerCrashSequence | reflexivity]. }
  rewrite Hh, !historyRows_as_firstn.
  unfold appendHistory. fold (lastN 1000 (history s)).
  rewrite rev_app_distr, lastN_rev.
  change (rev [r] ++ firstn 1000 (rev (history s)))
    with (r :: firstn 1000 (rev (history s))).
  change 20%nat with (S 19). rewrite firstn_cons. cbn [map]. f_equal.
  rewrite firstn_map, !firstn_firstn. reflexivity.
Qed.

Lemma historyView_after_sample_witness :
  normalize sqrt_down 1000 (Some cruiseSample) =
    Some (mkReading cruiseSample (gForceOf sqrt_down cruiseSample) 12.35 Motorcycle 1000) /\
  historyRows (history (step sqrt_down (after (polls 2 0 restSample))
                             (Fetched 1000 (Some cruiseSample)))) =
    [(1000%Z, 12.35, Motorcycle); (500%Z, 0, Idle); (0%Z, 0, Idle)].
Proof.
  assert (Hn : normalize sqrt_down 1000 (Some cruiseSample) =
               Some (mkReading cruiseSample (gForceOf sqrt_down cruiseSample)
                               12.35 Motorcycle 1000)) by reflexivity.
  split; [exact Hn |].
  rewrite (historyView_after_sample sqrt_down 1000 cruiseSample _
             (after (polls 2 0 restSample)) Hn).
  reflexivity.
Defined.

(** ** The dashboard *)

Lemma telemetry_step (sqrt : Q -> Q) (s : App) (e : Event) :
  telemetry (step sqrt s e) = telemetry s \/
  exists now d r, normalize sqrt now (Some d) = Some r /\
                  telemetry (step sqrt s e) = Some r.
Proof.
  destruct e as [now data | id | |]; cbn [step].
  - unfold onData. destruct (normalize sqrt now data) as [r |] eqn:E; [| now left].
    right. destruct data as [d |]; [| discriminate].
    exists now, d, r. split; [exact E |].
    destruct (greaterThan (gForce r) 3.5); [apply telemetry_triggerCrashSequence | reflexivity].
  - left. destruct (existsb (Nat.eqb id) (intervals s)); [apply telemetry_countdownTick | reflexivity].
  - now left.
  - now left.
Qed.

Lemma telemetry_none_until_processed (sqrt : Q -> Q) (events : list Event) :
  processed sqrt events = [] -> telemetry (run sqrt mounted events) = None.
Proof.
  induction events as [| e events IH] using rev_ind; [reflexivity |].
  rewrite processed_app, run_snoc. intros Hp.
  apply app_eq_nil in Hp. destruct Hp as [Hp1 Hp2]. specialize (IH Hp1).
  destruct e as [now data | id | |]; cbn [step]; try exact IH.
  - cbn [processed] in Hp2. unfold onData.
    destruct (normalize sqrt now data); [discriminate | exact IH].
  - destruct (existsb (Nat.eqb id) (intervals (run sqrt mounted events))); [| exact IH].
    now rewrite telemetry_countdownTick.
Qed.

(** X15.  After any sequence of events the ride-mode card shows the mode of
    the speed on the speed card, that speed is 0 or at least 0.8, and the
    posture card is never blank; before the first processed sample the cards
    show 0, [Idle] and "Upright". *)
Theorem dashboard_cards_agree :
  forall (sqrt : Q -> Q) (events : list Event),
    rideModeCard (run sqrt mounted events) = rideModeOf (speedCard (run sqrt mounted events)) /\
    (speedCard (run sqrt mounted events) = 0 \/ 0.8 <= speedCard (run sqrt mounted events)) /\
    postureCard (run sqrt mounted events) <> ""%string /\
    (processed sqrt events = [] ->
       speedCard (run sqrt mounted events) = 0 /\
       rideModeCard (run sqrt mounted events) = Idle /\
       postureCard (run sqrt mounted events) = "Upright"%string).
Proof.
  intros sqrt events.
  assert (Hinv : match telemetry (run sqrt mounted events) with
                 | Some r => ride_mode r = rideModeOf (spd r) /\ (spd r = 0 \/ 0.8 <= spd r)
                 | None => True
                 end).
  { apply (run_invariant sqrt
             (fun s => match telemetry s with
                       | Some r => ride_mode r = rideModeOf (spd r) /\
                                   (spd r = 0 \/ 0.8 <= spd r)
                       | None => True
                       end)); [exact I |].
    intros s e IH.
    destruct (telemetry_step sqrt s e) as [-> | (now & d & r & Hn & ->)]; [exact IH |].
    rewrite (normalize_speed sqrt now d r Hn). split; [| apply speedOf_gap].
    unfold normalize in Hn. destruct (ax d); [| discriminate]. now injection Hn as <-. }
  pose proof (telemetry_none_until_processed sqrt events) as Hnone.
  unfold speedCard, rideModeCard, postureCard.
  destruct (telemetry (run sqrt mounted events)) as [r |].
  - destruct Hinv as [Hmode Hgap]. split; [| split; [| split]].
    + rewrite Hmode. destruct (Qeq_bool (spd r) 0) eqn:E; [| reflexivity].
      destruct Hgap as [-> | Hge]; [reflexivity |].
      apply Qeq_bool_eq in E. exfalso. lra.
    + destruct (Qeq_bool (spd r) 0); [now left | exact Hgap].
    + destruct (posture (data_of r)) as [label |]; [| discriminate].
      destruct (String.eqb_spec label ""); [discriminate | assumption].
    + intros Hp. discriminate (Hnone Hp).
  - split; [reflexivity | split; [now left | split; [discriminate | now repeat split]]].
Qed.

Lemma dashboard_cards_agree_witness :
  processed sqrt_down [Fetched 0 (Some noXSample); Tick 1] = [] /\
  speedCard (after [Fetched 0 (Some noXSample); Tick 1]) = 0 /\
  rideModeCard (after [Fetched 0 (Some cruiseSample)]) =
    rideModeOf (speedCard (after [Fetched 0 (Some cruiseSample)])).
Proof.
  split; [reflexivity |]. split.
  - apply (dashboard_cards_agree sqrt_down [Fetched 0 (Some noXSample); Tick 1]).
    reflexivity.
  - apply (dashboard_cards_agree sqrt_down [Fetched 0 (Some cruiseSample)]).
Defined.

(** ** The CSV export *)

Lemma splitOn_without (sep : ascii) (s : string) :
  without sep s -> splitOn sep s = [s].
Proof.
  induction s as [| c s IH]; cbn [without splitOn]; [reflexivity |].
  intros [Hc Hs]. destruct (Ascii.eqb_spec c sep); [contradiction |].
  now rewrite (IH Hs).
Qed.

Lemma splitOn_app (sep : ascii) (s t : string) :
  without sep s ->
  splitOn sep (s ++ String sep t) = s :: splitOn sep t.
Proof.
  induction s as [| c s IH]; cbn [without String.append splitOn].
  - intros _. now rewrite Ascii.eqb_refl.
  - intros [Hc Hs]. destruct (Ascii.eqb_spec c sep); [contradiction |].
    now rewrite (IH Hs).
Qed.

Lemma splitOn_concat (sep : ascii) (parts : list string) :
  parts <> [] ->
  Forall (without sep) parts ->
  splitOn sep (String.concat (String sep EmptyString) parts) = parts.
Proof.
  induction parts as [| p parts IH]; [congruence |].
  intros _ Hall. inversion Hall as [| ? ? Hp Hrest]; subst.
  destruct parts as [| q parts].
  - cbn [String.concat]. now apply splitOn_without.
  - change (String.concat (String sep EmptyString) (p :: q :: parts))
      with (p ++ String sep (String.concat (String sep EmptyString) (q :: parts)))%string.
    rewrite (splitOn_app sep _ _ Hp). f_equal. apply IH; [discriminate | exact Hrest].
Qed.

Lemma without_app (c : ascii) (s t : string) :
  without c s -> without c t -> without c (s ++ t).
Proof.
  induction s as [| a s IH]; cbn [without String.append]; [auto |].
  intros [Ha Hs] Ht. split; [exact Ha | now apply IH].
Qed.

Lemma without_concat (c : ascii) (sep : string) (parts : list string) :
  without c sep -> Forall (without c) parts -> without c (String.concat sep parts).
Proof.
  intros Hsep. induction parts as [| p parts IH]; [intros _; exact I |].
  intros Hall. inversion Hall as [| ? ? Hp Hrest]; subst.
  destruct parts as [| q parts]; [exact Hp |].
  change (String.concat sep (p :: q :: parts))
    with (p ++ sep ++ String.concat sep (q :: parts))%string.
  apply without_app; [exact Hp |]. apply without_app; [exact Hsep | now apply IH].
Qed.

(** X16.  The export writes nothing for an empty history.  Otherwise the file
    has the keys of the first object as its first line and one line per
    object with that object's own values; when every object has a key and no
    key or value holds a comma or a line break, splitting the file at the
    line breaks and each line at the commas gives back exactly those keys and
    values. *)
Theorem downloadCSV_reads_back :
  forall objects : list JsObject,
    (downloadCSV objects = None <-> objects = []) /\
    (forall (first : JsObject) (others : list JsObject),
        objects = first :: others ->
        Forall (fun obj =>
                  obj <> [] /\
                  Forall (fun kv =>
                            (without "," (fst kv) /\ without (ascii_of_nat 10) (fst kv)) /\
                            (without "," (snd kv) /\ without (ascii_of_nat 10) (snd kv)))
                         obj)
               objects ->
        exists csv,
          downloadCSV objects = Some csv /\
          map (splitOn ",") (splitOn (ascii_of_nat 10) csv) =
            map fst first :: map (map snd) objects).
Proof.
  intros objects. split.
  - destruct objects; cbn [downloadCSV]; split; congruence.
  - intros first others -> Hall.
    cbn [downloadCSV]. eexists. split; [reflexivity |].
    set (objects := first :: others) in *.
    set (rows := map (fun obj : JsObject => String.concat "," (map snd obj)) objects).
    assert (Hfirst : first <> [] /\
                     Forall (fun kv =>
                               (without "," (fst kv) /\ without (ascii_of_nat 10) (fst kv)) /\
                               (without "," (snd kv) /\ without (ascii_of_nat 10) (snd kv)))
                            first).
    { inversion Hall; assumption. }
    assert (Hcomma : without (ascii_of_nat 10) ",") by (split; [discriminate | exact I]).
    assert (Hheader : without (ascii_of_nat 10) (String.concat "," (map fst first))).
    { apply without_concat; [exact Hcomma |].
      rewrite Forall_map. eapply Forall_impl; [| apply Hfirst]. cbn. tauto. }
    assert (Hrows : Forall (without (ascii_of_nat 10)) rows).
    { unfold rows. rewrite Forall_map. eapply Forall_impl; [| exact Hall].
      intros obj [_ Hobj]. apply without_concat; [exact Hcomma |].
      rewrite Forall_map. eapply Forall_impl; [| exact Hobj]. cbn. tauto. }
    change lineBreak with (String (ascii_of_nat 10) EmptyString).
    rewrite splitOn_concat; [| discriminate | constructor; assumption].
    cbn [map]. f_equal.
    + apply (splitOn_concat ","); [| rewrite Forall_map].
      * destruct first; [now destruct Hfirst | discriminate].
      * eapply Forall_impl; [| apply Hfirst]. cbn. tauto.
    + unfold rows. rewrite map_map. apply map_ext_in.
      intros obj Hin. rewrite Forall_forall in Hall. destruct (Hall obj Hin) as [Hne Hobj].
      apply (splitOn_concat ","); [| rewrite Forall_map].
      * destruct obj; [contradiction | discriminate].
      * eapply Forall_impl; [| exact Hobj]. cbn. tauto.
Qed.

Lemma downloadCSV_reads_back_witness :
  downloadCSV [[("ax", "0"); ("spd", "12.35"); ("ride_mode", "Motorcycle")];
               [("ax", "0.1"); ("spd", "0")]]%string =
    Some (String.concat lineBreak
            ["ax,spd,ride_mode"; "0,12.35,Motorcycle"; "0.1,0"])%string /\
  map (splitOn ",")
      (splitOn (ascii_of_nat 10)
         (String.concat lineBreak
            ["ax,spd,ride_mode"; "0,12.35,Motorcycle"; "0.1,0"])%string) =
    [["ax"; "spd"; "ride_mode"]; ["0"; "12.35"; "Motorcycle"]; ["0.1"; "0"]]%string.
Proof.
  split; [reflexivity |].
  destruct (proj2 (downloadCSV_reads_back
                     [[("ax", "0"); ("spd", "12.35"); ("ride_mode", "Motorcycle")];
                      [("ax", "0.1"); ("spd", "0")]]%string)
                  _ _ eq_refl) as (csv & Hcsv & Hback).
  - repeat constructor; discriminate.
  - injection Hcsv as <-. exact Hback.
Defined.

(** ** The map *)

Lemma truthyNumber_nonzero (field : option Q) (q : Q) :
  truthyNumber field = Some q -> ~ q == 0.
Proof.
  destruct field as [p |]; cbn [truthyNumber]; [| discriminate].
  destruct (Qeq_bool p 0) eqn:E; [discriminate |].
  intros [= <-]. now apply Qeq_bool_neq.
Qed.

Lemma mapTimeout_keeps_mapOk (present : bool) (lat lon : option Q) (m : MapRefs) :
  mapOk m -> exists m', mapTimeout present lat lon m = Some m' /\ mapOk m'.
Proof.
  intros Hm. unfold mapTimeout.
  destruct present; cbn [negb]; [| now exists m].
  assert (H1 : exists points,
             polylineRef match mapRef m with
                         | None => mkMapRefs (Some (12.9716, 77.5946)) (markerRef m) (Some [])
                         | Some _ => m
                         end = Some points /\
             mapOk match mapRef m with
                   | None => mkMapRefs (Some (12.9716, 77.5946)) (markerRef m) (Some [])
                   | Some _ => m
                   end).
  { unfold mapOk in Hm. destruct (polylineRef m) as [points |] eqn:Hp.
    - destruct Hm as (Hall & Hmark & Hcentre). rewrite Hcentre.
      exists points. split; [exact Hp |]. unfold mapOk. rewrite Hp.
      repeat split; assumption.
    - destruct Hm as [-> Hmark]. exists []. split; [reflexivity |].
      unfold mapOk. cbn. repeat split; [constructor | exact Hmark]. }
  destruct H1 as (points & Hp & Hok).
  destruct (truthyNumber lat) as [la |] eqn:Hla; [| eauto].
  destruct (truthyNumber lon) as [lo |] eqn:Hlo; [| eauto].
  rewrite Hp. eexists. split; [reflexivity |].
  unfold mapOk in *. rewrite Hp in Hok. cbn [polylineRef markerRef mapRef].
  rewrite newest_snoc. repeat split.
  rewrite Forall_app. split; [apply Hok |].
  constructor; [| constructor]. cbn [fst snd].
  split; eapply truthyNumber_nonzero; eassumption.
Qed.

(** X17.  Whatever timeouts fire, with the map element present or not and any
    positions, no call on a ref fails, and afterwards: without a polyline
    there is no map and no marker; with one, every point drawn has a non-zero
    latitude and longitude (a position on the equator or the prime meridian
    is never drawn), the marker stands on the newest point, and the map is
    centred there, or on its first centre while nothing is drawn. *)
Theorem map_follows_newest_position :
  forall fired : list (bool * option Q * option Q),
    exists m : MapRefs,
      mapTimeouts fired noMap = Some m /\
      match polylineRef m with
      | None => mapRef m = None /\ markerRef m = None
      | Some points =>
          Forall (fun p => ~ fst p == 0 /\ ~ snd p == 0) points /\
          markerRef m = newest points /\
          mapRef m = Some match newest points with
                          | Some p => p
                          | None => (12.9716, 77.5946)
                          end
      end.
Proof.
  intros fired. change (exists m, mapTimeouts fired noMap = Some m /\ mapOk m).
  assert (H0 : mapOk noMap) by (split; reflexivity).
  revert H0. generalize noMap.
  induction fired as [| [[present lat] lon] fired IH]; intros m Hm.
  - exists m. split; [reflexivity | exact Hm].
  - cbn [mapTimeouts].
    destruct (mapTimeout_keeps_mapOk present lat lon m Hm) as (m' & -> & Hm').
    apply IH. exact Hm'.
Qed.

(** Five timeouts: the map is created without a position, a first position is
    drawn, a timeout without the map element and a position on the equator
    draw nothing, a last position is drawn. *)
Lemma map_follows_newest_position_witness :
  exists m : MapRefs,
    mapTimeouts [(true, None, None);
                 (true, Some 12.97, Some 77.59);
                 (false, Some 12.98, Some 77.6);
                 (true, Some 0, Some 77.6);
                 (true, Some 12.99, Some 77.61)] noMap = Some m /\
    polylineRef m = Some [(12.97, 77.59); (12.99, 77.61)] /\
    markerRef m = Some (12.99, 77.61) /\
    mapRef m = Some (12.99, 77.61).
Proof.
  destruct (map_follows_newest_position
              [(true, None, None);
               (true, Some 12.97, Some 77.59);
               (false, Some 12.98, Some 77.6);
               (true, Some 0, Some 77.6);
               (true, Some 12.99, Some 77.61)]) as (m & Hm & _).
  exists m. split; [exact Hm |].
  vm_compute in Hm. injection Hm as <-. repeat split.
Defined.
